(** * SharedModal: the modal presenter of
      frontend/src/components/Modals/SharedModal.tsx

    The component is a React function component.  It is embedded here as a
    function from its props to the element tree it returns, run in a small
    render monad over the ambient world (component-local slots, the caller's
    open flag, and a trace of effects).  The host side (React flattening
    fragments and dropping empty values, the event dispatch) is modelled
    next to it. *)

From Stdlib Require Import Bool Ascii String List Floats Arith Lia.
Import ListNotations.
Open Scope string_scope.
Open Scope list_scope.

Set Implicit Arguments.
Set Warnings "-register-all".

(* ------------------------------------------------------------------ *)
(** ** JavaScript values *)

(** A function value supplied by the caller; two references are the same
    function when their identities agree. *)
Inductive Callback : Type :=
| Fn (id : nat).

(** What a handler can be called with. *)
Inductive JsValue : Type :=
| JUndefined
| JBoolean (b : bool)
| JEvent (type : string).

(** Element types that occur in the component, and [Custom] for whatever
    the caller puts in [children]. *)
Inductive ElementType : Type :=
| Dialog
| DialogContent
| DialogHeader
| DialogTitle
| DialogDescription
| Button
| IconX
| Div
| Fragment
| Custom (name : string).

(** JSX attributes. *)
Inductive Attr : Type :=
| ClassName (s : string)
| Open (b : bool)
| OnOpenChange (f : Callback)
| OnClick (f : Callback)
| Color (s : string).

(** [React.ReactNode]: everything that may stand in a child position;
    [RArray] stands for any iterable of nodes. *)
Inductive ReactNode : Type :=
| RUndefined
| RNull
| RBoolean (b : bool)
| RNumber (x : float)
| RString (s : string)
| RElement (type : ElementType) (props : list Attr) (kids : list ReactNode)
| RArray (items : list ReactNode).

(** [ToBoolean]: [undefined], [null], [false], [0], [-0], [NaN] and the
    empty string are falsy; every object (elements, arrays) is truthy. *)
Definition truthy (v : ReactNode) : bool :=
  match v with
  | RUndefined => false
  | RNull => false
  | RBoolean b => b
  | RNumber x => negb (PrimFloat.is_zero x || PrimFloat.is_nan x)
  | RString s => negb (s =? "")
  | RElement _ _ _ => true
  | RArray _ => true
  end.

(** [!v] *)
Definition js_not (v : ReactNode) : bool := negb (truthy v).

(** [a && b]: the left operand itself when it is falsy, else the right. *)
Definition js_and (a b : ReactNode) : ReactNode :=
  if truthy a then b else a.

(** An optional string prop ([title?: string]) read as a value. *)
Definition of_optional (o : option string) : ReactNode :=
  match o with
  | None => RUndefined
  | Some s => RString s
  end.

(* ------------------------------------------------------------------ *)
(** ** The world a render runs in *)

Inductive Effect : Type :=
| Invoke (f : Callback) (args : list JsValue)
| Network (url : string)
| Storage (key : string)
| Timer (ms : nat).

Record World : Type := mkWorld {
  slots : list JsValue;      (* component-local state a hook would own *)
  callerOpen : bool;         (* the caller's open/closed state *)
  trace : list Effect        (* effects performed so far, oldest first *)
}.

Definition Render (A : Type) : Type := World -> A * World.

Definition ret {A : Type} (a : A) : Render A := fun w => (a, w).

Definition bind {A B : Type} (m : Render A) (k : A -> Render B) : Render B :=
  fun w => let (a, w') := m w in k a w'.

(** Calling a function value: recorded in the trace. *)
Definition invoke (f : Callback) (args : list JsValue) (w : World) : World :=
  {| slots := slots w; callerOpen := callerOpen w;
     trace := trace w ++ [Invoke f args] |}.

(* ------------------------------------------------------------------ *)
(** ** The component *)

(** [interface DialogModalProps] *)
Record DialogModalProps : Type := mkProps {
  open : bool;
  title : option string;
  description : option string;
  onClose : Callback;
  children : ReactNode
}.

(** [const showInfoOnly = !children;] *)
Definition showInfoOnly (p : DialogModalProps) : bool := js_not (children p).

(** The template literal of [DialogContent]'s [className]. *)
Definition contentClassName (p : DialogModalProps) : string :=
  "p-0 " ++ (if showInfoOnly p then "!max-w-md" else "w-full !max-w-2xl").

(** [{showInfoOnly && (<> ... </>)}] *)
Definition infoBlock (p : DialogModalProps) : ReactNode :=
  js_and (RBoolean (showInfoOnly p))
    (RElement Fragment []
       [ RElement DialogHeader []
           [ js_and (of_optional (title p))
               (RElement DialogTitle [ClassName "flex"]
                  [of_optional (title p)]);
             js_and (of_optional (description p))
               (RElement DialogDescription []
                  [of_optional (description p)]) ];
         RElement Div [ClassName "flex justify-end pt-4"]
           [ RElement Button [ClassName "btn"; OnClick (onClose p)]
               [RString "Close"] ] ]).

(** [{children && (<div className="relative max-h-[75vh] overflow-auto"> ... </div>)}] *)
Definition contentBlock (p : DialogModalProps) : ReactNode :=
  js_and (children p)
    (RElement Div [ClassName "relative max-h-[75vh] overflow-auto"]
       [ RElement Div [ClassName "relative"] [children p];
         RElement IconX
           [ OnClick (onClose p); Color "red";
             ClassName "absolute top-8 right-0 hover:bg-gray-100 rounded-md cursor-pointer" ]
           [] ]).

(** The element the function returns. *)
Definition element (p : DialogModalProps) : ReactNode :=
  RElement Dialog [Open (open p); OnOpenChange (onClose p)]
    [ RElement DialogContent [ClassName (contentClassName p)]
        [ infoBlock p; contentBlock p ] ].

(** [export function SharedModal({ open, title, description, onClose, children })] *)
Definition SharedModal (p : DialogModalProps) : Render ReactNode :=
  ret (element p).

(* ------------------------------------------------------------------ *)
(** ** The host: what reaches the screen *)

Definition has_open (a : Attr) : bool :=
  match a with
  | Open true => true
  | _ => false
  end.

(** Modelled from the spec: the Dialog primitive of [../ui/Dialog], which is
    not among the sources.  It owns the overlay: the overlay and everything
    in it is shown when [open] is true, and nothing is shown when it is
    false. *)
Definition Dialog_shows (props : list Attr) : bool := existsb has_open props.

(** React's treatment of child values: [undefined], [null], booleans and the
    empty string produce nothing, numbers and other strings produce text,
    fragments and arrays are spliced into their parent.  Elements other than
    fragments stay elements: what a primitive ([DialogContent], [Button],
    [IconX], ...) draws inside itself is its own business, and the screen is
    read at the level of the elements the component put there. *)
Fixpoint mount (n : ReactNode) : list ReactNode :=
  match n with
  | RUndefined => []
  | RNull => []
  | RBoolean _ => []
  | RNumber x => [RNumber x]
  | RString s => if s =? "" then [] else [RString s]
  | RArray items => flat_map mount items
  | RElement Fragment _ kids => flat_map mount kids
  | RElement Dialog props kids =>
      if Dialog_shows props
      then [RElement Dialog props (flat_map mount kids)]
      else []
  | RElement t props kids => [RElement t props (flat_map mount kids)]
  end.

(** One render pass: run the component, hand the result to the host. *)
Definition render (p : DialogModalProps) : Render (list ReactNode) :=
  bind (SharedModal p) (fun e => ret (mount e)).

(** The screen after rendering [p] in a fresh world. *)
Definition screen (p : DialogModalProps) : list ReactNode := mount (element p).

(* ------------------------------------------------------------------ *)
(** ** Observations on element trees and on the screen *)

Definition ElementType_eqb (a b : ElementType) : bool :=
  match a, b with
  | Dialog, Dialog => true
  | DialogContent, DialogContent => true
  | DialogHeader, DialogHeader => true
  | DialogTitle, DialogTitle => true
  | DialogDescription, DialogDescription => true
  | Button, Button => true
  | IconX, IconX => true
  | Div, Div => true
  | Fragment, Fragment => true
  | Custom x, Custom y => x =? y
  | _, _ => false
  end.

Definition is_type (t : ElementType) (n : ReactNode) : bool :=
  match n with
  | RElement t' _ _ => ElementType_eqb t t'
  | _ => false
  end.

Definition kids_of (n : ReactNode) : list ReactNode :=
  match n with
  | RElement _ _ kids => kids
  | _ => []
  end.

Definition props_of (n : ReactNode) : list Attr :=
  match n with
  | RElement _ props _ => props
  | _ => []
  end.

Fixpoint className_of (props : list Attr) : option string :=
  match props with
  | [] => None
  | ClassName s :: _ => Some s
  | _ :: rest => className_of rest
  end.

(** The classes of a [className] string: its space-separated words. *)
Fixpoint words_from (acc s : string) : list string :=
  match s with
  | EmptyString => if acc =? "" then [] else [acc]
  | String c rest =>
      if Ascii.eqb c " "
      then (if acc =? "" then words_from "" rest
            else acc :: words_from "" rest)
      else words_from (acc ++ String c "") rest
  end.

Definition classes (n : ReactNode) : list string :=
  match className_of (props_of n) with
  | Some s => words_from "" s
  | None => []
  end.

Definition has_class (c : string) (n : ReactNode) : bool :=
  existsb (String.eqb c) (classes n).

(** How many elements of type [t] a tree holds, at any depth. *)
Fixpoint count (t : ElementType) (n : ReactNode) : nat :=
  match n with
  | RElement t' _ kids =>
      (if ElementType_eqb t t' then 1 else 0) + list_sum (map (count t) kids)
  | RArray items => list_sum (map (count t) items)
  | _ => 0
  end.

Definition count_on (t : ElementType) (scr : list ReactNode) : nat :=
  list_sum (map (count t) scr).

Definition on_click (n : ReactNode) : list Callback :=
  flat_map (fun a => match a with OnClick f => [f] | _ => [] end) (props_of n).

Definition on_open_change (n : ReactNode) : list Callback :=
  flat_map (fun a => match a with OnOpenChange f => [f] | _ => [] end)
           (props_of n).

(** The container: the [DialogContent] elements directly under a [Dialog]. *)
Definition containers (d : ReactNode) : list ReactNode :=
  if is_type Dialog d then filter (is_type DialogContent) (kids_of d) else [].

(** What the container of a returned element would put on the screen. *)
Definition body_of (e : ReactNode) : list ReactNode :=
  flat_map (fun c => flat_map mount (kids_of c)) (containers e).

(** What the containers on the screen hold. *)
Definition overlay_body (scr : list ReactNode) : list ReactNode :=
  flat_map (fun d => flat_map kids_of (containers d)) scr.

Definition is_header (n : ReactNode) : bool := is_type DialogHeader n.

Definition is_close_row (n : ReactNode) : bool :=
  is_type Div n && existsb (is_type Button) (kids_of n).

Definition is_scroll_region (n : ReactNode) : bool :=
  is_type Div n && has_class "overflow-auto" n && has_class "max-h-[75vh]" n.

Definition info_block_in (b : list ReactNode) : bool :=
  existsb is_header b || existsb is_close_row b.

Definition content_block_in (b : list ReactNode) : bool :=
  existsb is_scroll_region b.

(** The two presentation modes of the specification. *)
Inductive Mode : Type :=
| INFO_ONLY
| CONTENT.

(** The mode a body shows: the one whose block it holds, when it holds
    exactly one. *)
Definition mode_of (b : list ReactNode) : option Mode :=
  match info_block_in b, content_block_in b with
  | true, false => Some INFO_ONLY
  | false, true => Some CONTENT
  | _, _ => None
  end.

(** Whether the caller supplied [children] at all. *)
Definition supplied (v : ReactNode) : bool :=
  match v with
  | RUndefined => false
  | _ => true
  end.

(* ------------------------------------------------------------------ *)
(** ** Dismissal gestures *)

Inductive Gesture : Type :=
| ClickCloseButton
| ClickDismissIcon
| DialogDismiss.

Definition clicked (t : ElementType) (scr : list ReactNode) : list Callback :=
  flat_map
    (fun row =>
       if is_type Div row
       then flat_map (fun b => if is_type t b then on_click b else [])
                     (kids_of row)
       else [])
    (overlay_body scr).

(** The handlers a gesture reaches on a screen: the [onClick] of the close
    button or of the dismiss icon (the direct children of the container's
    rows, so nothing inside the caller's content), or the [onOpenChange] of
    the dialog. *)
Definition targets (g : Gesture) (scr : list ReactNode) : list Callback :=
  match g with
  | ClickCloseButton => clicked Button scr
  | ClickDismissIcon => clicked IconX scr
  | DialogDismiss =>
      flat_map (fun d => if is_type Dialog d then on_open_change d else []) scr
  end.

(** The host dispatching a gesture: each handler reached is called once with
    the arguments [args] the host passes to it. *)
Definition activate (g : Gesture) (args : list JsValue)
    (scr : list ReactNode) (w : World) : World :=
  fold_left (fun w' f => invoke f args w') (targets g scr) w.

(** The gestures a mode offers. *)
Definition offered (g : Gesture) (p : DialogModalProps) : bool :=
  match g with
  | ClickCloseButton => showInfoOnly p
  | ClickDismissIcon => negb (showInfoOnly p)
  | DialogDismiss => true
  end.

(* ------------------------------------------------------------------ *)
(** ** Requests used as examples *)

Definition form : ReactNode := RElement (Custom "Form") [] [].

Definition fresh : World := mkWorld [] true [].

(** Scenario A of the specification. *)
Definition scenarioA : DialogModalProps :=
  mkProps true (Some "Delete item?") (Some "This cannot be undone.")
          (Fn 1) RUndefined.

(** Scenario B. *)
Definition scenarioB : DialogModalProps :=
  mkProps true (Some "ignored") None (Fn 1) form.

(** Scenario C. *)
Definition scenarioC : DialogModalProps :=
  mkProps false None None (Fn 1) form.

(** Content that is supplied and falsy: the empty string, and zero. *)
Definition emptyText : DialogModalProps :=
  mkProps true (Some "Saved") None (Fn 1) (RString "").

Definition zero : DialogModalProps :=
  mkProps true (Some "Saved") None (Fn 1) (RNumber 0%float).

(** What React hands to an [onClick] handler: the click event. *)
Definition click : list JsValue := [JEvent "click"].

(** The mode the specification's wording gives: by presence of content. *)
Definition mode_by_presence (p : DialogModalProps) : Mode :=
  if supplied (children p) then CONTENT else INFO_ONLY.

(** The mode by truthiness of content. *)
Definition mode_by_truthiness (p : DialogModalProps) : Mode :=
  if truthy (children p) then CONTENT else INFO_ONLY.

(** An optional text that is provided and non-empty. *)
Definition provided (o : option string) : bool :=
  match o with
  | Some s => negb (s =? "")
  | None => false
  end.

(** The pieces of the screen, named for the statements below. *)
Definition titleRegion (p : DialogModalProps) : list ReactNode :=
  if provided (title p)
  then [RElement DialogTitle [ClassName "flex"] [of_optional (title p)]]
  else [].

Definition descriptionRegion (p : DialogModalProps) : list ReactNode :=
  if provided (description p)
  then [RElement DialogDescription [] [of_optional (description p)]]
  else [].

Definition closeRow (p : DialogModalProps) : ReactNode :=
  RElement Div [ClassName "flex justify-end pt-4"]
    [RElement Button [ClassName "btn"; OnClick (onClose p)] [RString "Close"]].

Definition dismissIcon (p : DialogModalProps) : ReactNode :=
  RElement IconX
    [ OnClick (onClose p); Color "red";
      ClassName "absolute top-8 right-0 hover:bg-gray-100 rounded-md cursor-pointer" ]
    [].

Definition scrollRegion (p : DialogModalProps) : ReactNode :=
  RElement Div [ClassName "relative max-h-[75vh] overflow-auto"]
    [RElement Div [ClassName "relative"] (mount (children p)); dismissIcon p].

(** The classes of the container(s) of a returned element. *)
Definition container_classes (e : ReactNode) : list (list string) :=
  map classes (containers e).

(** The same request with other texts. *)
Definition with_texts (t d : option string) (p : DialogModalProps)
  : DialogModalProps :=
  mkProps (open p) t d (onClose p) (children p).

(* ------------------------------------------------------------------ *)
(** ** Further observations *)

(** The text a tree shows, in reading order: its strings and numbers. *)
Fixpoint leaves (n : ReactNode) : list ReactNode :=
  match n with
  | RNumber x => [RNumber x]
  | RString s => [RString s]
  | RElement _ _ kids => flat_map leaves kids
  | RArray items => flat_map leaves items
  | _ => []
  end.

Definition leaves_on (scr : list ReactNode) : list ReactNode :=
  flat_map leaves scr.

(** The text of an optional string on the screen. *)
Definition shown_text (o : option string) : list ReactNode :=
  if provided o then [of_optional o] else [].

(** What a falsy value leaves on the screen: a falsy number is printed. *)
Definition stray (c : ReactNode) : list ReactNode :=
  match c with
  | RNumber x => [RNumber x]
  | _ => []
  end.


(** Several gestures, one after the other, on one and the same screen. *)
Fixpoint activate_all (gs : list (Gesture * list JsValue))
    (scr : list ReactNode) (w : World) : World :=
  match gs with
  | [] => w
  | (g, args) :: rest => activate_all rest scr (activate g args scr w)
  end.

(* ================================================================== *)
(** * Properties *)

Ltac unfold_component :=
  unfold screen, element, infoBlock, contentBlock, contentClassName,
         showInfoOnly, js_not, js_and in *.

Lemma SharedModal_run (p : DialogModalProps) (w : World) :
  SharedModal p w = (element p, w).
Proof. reflexivity. Qed.

Lemma render_run (p : DialogModalProps) (w : World) :
  render p w = (screen p, w).
Proof. reflexivity. Qed.

Lemma truthy_of_optional (o : option string) :
  truthy (of_optional o) = provided o.
Proof. destruct o; reflexivity. Qed.

(** A falsy value puts nothing on the screen, except a falsy number, which
    React prints. *)
Lemma mount_falsy (c : ReactNode) :
  truthy c = false -> mount c = [] \/ exists x, mount c = [RNumber x].
Proof.
  destruct c as [| |b|x|s|t props kids|items]; simpl; intros H;
    try discriminate; try (left; reflexivity).
  - right. exists x. reflexivity.
  - left. destruct (s =? ""); [reflexivity | discriminate].
Qed.

Lemma mount_title (o : option string) (cls : list Attr) (t : ElementType) :
  t <> Fragment -> t <> Dialog ->
  mount (js_and (of_optional o) (RElement t cls [of_optional o]))
  = if provided o then [RElement t cls [of_optional o]] else [].
Proof.
  intros Hf Hd. unfold js_and. rewrite truthy_of_optional.
  destruct o as [s|]; simpl; [|reflexivity].
  destruct s as [|a s]; simpl; [reflexivity|].
  destruct t; try reflexivity; congruence.
Qed.

(** What the container holds when [children] is falsy. *)
Section InfoOnly.

Variable p : DialogModalProps.
Hypothesis Hfalsy : truthy (children p) = false.

Lemma body_info :
  body_of (element p)
  = RElement DialogHeader [] (titleRegion p ++ descriptionRegion p)
      :: closeRow p :: mount (children p).
Proof.
  unfold body_of, containers, element. simpl.
  unfold infoBlock, contentBlock, showInfoOnly, js_not.
  unfold js_and at 1. rewrite Hfalsy. simpl truthy. cbv iota.
  unfold js_and at 3. rewrite Hfalsy.
  change (mount (RElement Fragment [] ?k)) with (flat_map mount k).
  simpl flat_map.
  rewrite !mount_title by discriminate.
  rewrite !app_nil_r. reflexivity.
Qed.

Lemma blocks_info :
  info_block_in (body_of (element p)) = true
  /\ content_block_in (body_of (element p)) = false.
Proof.
  rewrite body_info. split; [reflexivity|].
  unfold content_block_in.
  destruct (mount_falsy (children p) Hfalsy) as [E | [x E]]; rewrite E;
    reflexivity.
Qed.

End InfoOnly.

(** What the container holds when [children] is truthy. *)
Section WithContent.

Variable p : DialogModalProps.
Hypothesis Htruthy : truthy (children p) = true.

Lemma body_content : body_of (element p) = [scrollRegion p].
Proof.
  unfold body_of, containers, element. simpl.
  unfold infoBlock, contentBlock, showInfoOnly, js_not, js_and.
  rewrite Htruthy. simpl. rewrite !app_nil_r. reflexivity.
Qed.

Lemma blocks_content :
  info_block_in (body_of (element p)) = false
  /\ content_block_in (body_of (element p)) = true.
Proof.
  rewrite body_content. split; reflexivity.
Qed.

End WithContent.

Lemma screen_open (p : DialogModalProps) :
  open p = true ->
  screen p
  = [RElement Dialog [Open true; OnOpenChange (onClose p)]
       [RElement DialogContent [ClassName (contentClassName p)]
          (body_of (element p))]].
Proof.
  intros H. unfold screen, body_of, containers, element. simpl.
  rewrite H. simpl. rewrite !app_nil_r. reflexivity.
Qed.

Lemma screen_closed (p : DialogModalProps) :
  open p = false -> screen p = [].
Proof.
  intros H. unfold screen, element. simpl. rewrite H. reflexivity.
Qed.

Lemma overlay_body_screen (p : DialogModalProps) :
  open p = true -> overlay_body (screen p) = body_of (element p).
Proof.
  intros H. rewrite (screen_open p H). unfold overlay_body, containers.
  simpl. rewrite !app_nil_r. reflexivity.
Qed.

Lemma mode_of_element (p : DialogModalProps) :
  mode_of (body_of (element p)) = Some (mode_by_truthiness p).
Proof.
  unfold mode_of, mode_by_truthiness.
  destruct (truthy (children p)) eqn:H.
  - destruct (blocks_content p H) as [-> ->]. reflexivity.
  - destruct (blocks_info p H) as [-> ->]. reflexivity.
Qed.

(* ------------------------------------------------------------------ *)
(** ** Mode selection *)

(** C1, as the code has it: the mode a render shows is decided by the
    truthiness of [children] alone -- INFO_ONLY when [children] is absent or
    falsy, CONTENT when it is truthy.  It is derived anew in every render:
    the render leaves the world as it found it, so no flag is kept, and any
    two renders, in any two worlds, of requests with the same [children]
    show the same mode. *)
Theorem mode_derived_from_truthiness (p q : DialogModalProps) (w w' : World) :
  mode_of (body_of (fst (SharedModal p w))) = Some (mode_by_truthiness p)
  /\ snd (SharedModal p w) = w
  /\ (children q = children p ->
      mode_of (body_of (fst (SharedModal q w')))
      = mode_of (body_of (fst (SharedModal p w)))).
Proof.
  rewrite !SharedModal_run. simpl fst. simpl snd.
  repeat split.
  - apply mode_of_element.
  - intros E. rewrite !mode_of_element. unfold mode_by_truthiness.
    rewrite E. reflexivity.
Qed.

Lemma mode_derived_from_truthiness_witness :
  mode_of (body_of (fst (SharedModal scenarioB fresh))) = Some CONTENT
  /\ mode_of (body_of (fst (SharedModal scenarioC (invoke (Fn 7) [] fresh))))
     = mode_of (body_of (fst (SharedModal scenarioB fresh))).
Proof.
  destruct (mode_derived_from_truthiness scenarioB scenarioC fresh
              (invoke (Fn 7) [] fresh)) as [H1 [_ H3]].
  split.
  - exact H1.
  - apply H3. reflexivity.
Defined.

(** Against the wording of C1: content that is present but
    falsy (here the empty string) is shown in INFO_ONLY mode, where presence
    would give CONTENT. *)
Lemma mode_by_presence_fails :
  supplied (children emptyText) = true
  /\ mode_of (body_of (fst (SharedModal emptyText fresh))) = Some INFO_ONLY
  /\ mode_of (body_of (fst (SharedModal emptyText fresh)))
     <> Some (mode_by_presence emptyText).
Proof.
  split; [reflexivity|]. split; [reflexivity|].
  intros H. vm_compute in H. discriminate H.
Qed.

(* ------------------------------------------------------------------ *)
(** ** Closed requests *)

(** C2: a request with [open = false] puts nothing on the screen, whatever
    its title, description, content and callback are. *)
Theorem closed_renders_nothing (p : DialogModalProps) (w : World) :
  open p = false -> fst (render p w) = [].
Proof.
  intros H. rewrite render_run. simpl. apply screen_closed. exact H.
Qed.

Lemma closed_renders_nothing_witness :
  open scenarioC = false /\ fst (render scenarioC fresh) = [].
Proof.
  split.
  - reflexivity.
  - apply (closed_renders_nothing scenarioC fresh). reflexivity.
Defined.

(* ------------------------------------------------------------------ *)
(** ** The two blocks *)

Lemma provided_spec (o : option string) :
  provided o = true <-> exists s, o = Some s /\ s <> "".
Proof.
  destruct o as [[|a s]|]; simpl; split; intros H; try discriminate.
  - destruct H as [s [E N]]. injection E as <-. contradiction.
  - eexists. split; [reflexivity | discriminate].
  - reflexivity.
  - destruct H as [s [E _]]. discriminate.
Qed.

Lemma screen_ignores_texts (p : DialogModalProps) (t d : option string) :
  truthy (children p) = true -> screen (with_texts t d p) = screen p.
Proof.
  intros H. unfold with_texts. unfold_component. simpl.
  rewrite H. reflexivity.
Qed.

(** C3: of the INFO_ONLY block and the CONTENT block, the element returned
    holds exactly one, and the screen never holds both.  In CONTENT mode the
    title and the description do not reach the screen: the container holds
    no header, the screen is the same whatever texts are supplied, and every
    title or description element on it belongs to the caller's content. *)
Theorem modes_mutually_exclusive (p : DialogModalProps) (t d : option string) :
  xorb (info_block_in (body_of (element p)))
       (content_block_in (body_of (element p))) = true
  /\ info_block_in (overlay_body (screen p))
     && content_block_in (overlay_body (screen p)) = false
  /\ (mode_of (body_of (element p)) = Some CONTENT ->
      existsb is_header (body_of (element p)) = false
      /\ screen (with_texts t d p) = screen p
      /\ count_on DialogTitle (body_of (element p))
         = count_on DialogTitle (mount (children p))
      /\ count_on DialogDescription (body_of (element p))
         = count_on DialogDescription (mount (children p))).
Proof.
  split; [|split].
  - destruct (truthy (children p)) eqn:H.
    + destruct (blocks_content p H) as [-> ->]. reflexivity.
    + destruct (blocks_info p H) as [-> ->]. reflexivity.
  - destruct (open p) eqn:Ho.
    + rewrite (overlay_body_screen p Ho).
      destruct (truthy (children p)) eqn:H.
      * destruct (blocks_content p H) as [-> ->]. reflexivity.
      * destruct (blocks_info p H) as [-> ->]. reflexivity.
    + rewrite (screen_closed p Ho). reflexivity.
  - rewrite mode_of_element. unfold mode_by_truthiness.
    destruct (truthy (children p)) eqn:H; [intros _ | discriminate].
    split; [|split; [|split]].
    + rewrite (body_content p H). reflexivity.
    + apply screen_ignores_texts. exact H.
    + rewrite (body_content p H). unfold count_on. simpl. lia.
    + rewrite (body_content p H). unfold count_on. simpl. lia.
Qed.

Lemma modes_mutually_exclusive_witness :
  screen (with_texts None None scenarioB) = screen scenarioB
  /\ count_on DialogTitle (body_of (element scenarioB)) = 0.
Proof.
  destruct (modes_mutually_exclusive scenarioB None None) as [_ [_ H]].
  destruct (H eq_refl) as [_ [H2 [H3 _]]].
  split; [exact H2 | exact H3].
Defined.

Ltac info_cases p H :=
  unfold titleRegion, descriptionRegion, closeRow;
  destruct (mount_falsy (children p) H) as [?E | [?x ?E]]; rewrite ?E;
  destruct (title p) as [[|? ?]|]; destruct (description p) as [[|? ?]|].

Lemma info_counts (p : DialogModalProps) :
  open p = true -> truthy (children p) = false ->
  count_on Button (screen p) = 1
  /\ count_on IconX (screen p) = 0
  /\ count_on DialogTitle (screen p) = (if provided (title p) then 1 else 0)
  /\ count_on DialogDescription (screen p)
     = (if provided (description p) then 1 else 0).
Proof.
  intros Ho H. rewrite (screen_open p Ho), (body_info p H).
  info_cases p H; repeat split; reflexivity.
Qed.

(** The handlers each gesture reaches on the screen of a request. *)
Lemma targets_screen (p : DialogModalProps) (g : Gesture) :
  targets g (screen p) = if open p && offered g p then [onClose p] else [].
Proof.
  destruct (open p) eqn:Ho.
  - destruct g; unfold targets, clicked.
    + rewrite (overlay_body_screen p Ho). simpl. unfold showInfoOnly, js_not.
      destruct (truthy (children p)) eqn:H.
      * rewrite (body_content p H). reflexivity.
      * rewrite (body_info p H).
        destruct (mount_falsy (children p) H) as [E | [x E]]; rewrite E;
          reflexivity.
    + rewrite (overlay_body_screen p Ho). simpl. unfold showInfoOnly, js_not.
      destruct (truthy (children p)) eqn:H.
      * rewrite (body_content p H). reflexivity.
      * rewrite (body_info p H).
        destruct (mount_falsy (children p) H) as [E | [x E]]; rewrite E;
          reflexivity.
    + rewrite (screen_open p Ho). reflexivity.
  - rewrite (screen_closed p Ho). destruct g; reflexivity.
Qed.

(** C4: an open request without content is shown in INFO_ONLY mode.  The
    container holds the header -- the title region, then the description
    region -- and the row with the close button, in that order; there is
    exactly one button, wired to [onClose], and no dismiss icon; the title
    region and the description region are there exactly when the field is
    provided and not the empty string. *)
Theorem info_only_render (p : DialogModalProps) :
  open p = true -> children p = RUndefined ->
  mode_of (overlay_body (screen p)) = Some INFO_ONLY
  /\ overlay_body (screen p)
     = [RElement DialogHeader [] (titleRegion p ++ descriptionRegion p);
        closeRow p]
  /\ count_on Button (screen p) = 1
  /\ count_on IconX (screen p) = 0
  /\ targets ClickCloseButton (screen p) = [onClose p]
  /\ (count_on DialogTitle (screen p) = 1
      <-> exists s, title p = Some s /\ s <> "")
  /\ (count_on DialogTitle (screen p) = 0 <-> provided (title p) = false)
  /\ (count_on DialogDescription (screen p) = 1
      <-> exists s, description p = Some s /\ s <> "")
  /\ (count_on DialogDescription (screen p) = 0
      <-> provided (description p) = false).
Proof.
  intros Ho Hc.
  assert (H : truthy (children p) = false) by (rewrite Hc; reflexivity).
  destruct (info_counts p Ho H) as [Hb [Hi [Ht Hd]]].
  rewrite (overlay_body_screen p Ho).
  split; [|split; [|split; [|split; [|split]]]].
  - rewrite mode_of_element. unfold mode_by_truthiness. rewrite H. reflexivity.
  - rewrite (body_info p H), Hc. reflexivity.
  - exact Hb.
  - exact Hi.
  - rewrite targets_screen, Ho. simpl. unfold showInfoOnly, js_not.
    rewrite H. reflexivity.
  - rewrite Ht, Hd, <- !provided_spec.
    destruct (provided (title p)), (provided (description p));
      repeat split; intros; congruence.
Qed.

Lemma info_only_render_witness :
  overlay_body (screen scenarioA)
  = [RElement DialogHeader []
       [RElement DialogTitle [ClassName "flex"] [RString "Delete item?"];
        RElement DialogDescription [] [RString "This cannot be undone."]];
     RElement Div [ClassName "flex justify-end pt-4"]
       [RElement Button [ClassName "btn"; OnClick (Fn 1)] [RString "Close"]]]
  /\ count_on Button (screen scenarioA) = 1.
Proof.
  destruct (info_only_render scenarioA eq_refl eq_refl)
    as [_ [H2 [H3 _]]].
  split; [exact H2 | exact H3].
Defined.

(** C5, as the code has it: an open request whose content is truthy shows,
    in the container, one region and nothing else.  The region is scrollable
    and bounded to 75% of the viewport height; it holds the caller's content,
    unchanged, in a wrapper, and after it the dismiss icon, placed at the top
    right and wired to [onClose]. *)
Theorem content_render (p : DialogModalProps) :
  open p = true -> truthy (children p) = true ->
  contentBlock p
  = RElement Div [ClassName "relative max-h-[75vh] overflow-auto"]
      [RElement Div [ClassName "relative"] [children p]; dismissIcon p]
  /\ overlay_body (screen p)
     = [RElement Div [ClassName "relative max-h-[75vh] overflow-auto"]
          [RElement Div [ClassName "relative"] (mount (children p));
           dismissIcon p]]
  /\ existsb is_scroll_region (overlay_body (screen p)) = true
  /\ mode_of (overlay_body (screen p)) = Some CONTENT
  /\ is_type IconX (dismissIcon p) = true
  /\ has_class "absolute" (dismissIcon p)
     && has_class "top-8" (dismissIcon p) = true
  /\ targets ClickDismissIcon (screen p) = [onClose p].
Proof.
  intros Ho H. rewrite (overlay_body_screen p Ho).
  repeat split.
  - unfold contentBlock, js_and. rewrite H. reflexivity.
  - rewrite (body_content p H). reflexivity.
  - rewrite (body_content p H). reflexivity.
  - rewrite mode_of_element. unfold mode_by_truthiness. rewrite H. reflexivity.
  - rewrite targets_screen, Ho. simpl. unfold showInfoOnly, js_not.
    rewrite H. reflexivity.
Qed.

Lemma content_render_witness :
  overlay_body (screen scenarioB)
  = [RElement Div [ClassName "relative max-h-[75vh] overflow-auto"]
       [RElement Div [ClassName "relative"] [form]; dismissIcon scenarioB]]
  /\ targets ClickDismissIcon (screen scenarioB) = [Fn 1].
Proof.
  destruct (content_render scenarioB eq_refl eq_refl)
    as [_ [H2 [_ [_ [_ [_ H7]]]]]].
  split; [exact H2 | exact H7].
Defined.

(** Against the wording of C5: the number zero is content
    that is present, yet an open request carrying it shows no scrollable
    region and no dismiss icon. *)
Lemma present_content_not_rendered :
  open zero = true
  /\ supplied (children zero) = true
  /\ existsb is_scroll_region (overlay_body (screen zero)) = false
  /\ count_on IconX (screen zero) = 0
  /\ ~ (existsb is_scroll_region (overlay_body (screen zero)) = true
        /\ 0 < count_on IconX (screen zero)).
Proof.
  repeat split; try reflexivity.
  intros [H _]. vm_compute in H. discriminate H.
Qed.

(** C9: an open request whose content is supplied but falsy is shown in
    INFO_ONLY mode: the row with the close button is there, with its one
    button wired to [onClose], and there is neither a scrollable region nor
    a dismiss icon. *)
Theorem falsy_content_is_info_only (p : DialogModalProps) :
  open p = true -> supplied (children p) = true ->
  truthy (children p) = false ->
  mode_of (overlay_body (screen p)) = Some INFO_ONLY
  /\ existsb is_header (overlay_body (screen p)) = true
  /\ existsb is_close_row (overlay_body (screen p)) = true
  /\ count_on Button (screen p) = 1
  /\ targets ClickCloseButton (screen p) = [onClose p]
  /\ existsb is_scroll_region (overlay_body (screen p)) = false
  /\ count_on IconX (screen p) = 0
  /\ targets ClickDismissIcon (screen p) = [].
Proof.
  intros Ho _ H.
  destruct (info_counts p Ho H) as [Hb [Hi _]].
  destruct (blocks_info p H) as [_ Hs].
  rewrite !targets_screen, Ho, (overlay_body_screen p Ho).
  unfold offered, showInfoOnly, js_not. rewrite H.
  repeat split; try assumption; try reflexivity.
  - rewrite mode_of_element. unfold mode_by_truthiness. rewrite H. reflexivity.
  - rewrite (body_info p H). reflexivity.
  - rewrite (body_info p H). reflexivity.
Qed.

Lemma falsy_content_is_info_only_witness :
  mode_of (overlay_body (screen emptyText)) = Some INFO_ONLY
  /\ mode_of (overlay_body (screen zero)) = Some INFO_ONLY
  /\ count_on IconX
       (screen (mkProps true None None (Fn 1) (RBoolean false))) = 0.
Proof.
  split; [|split].
  - apply (falsy_content_is_info_only emptyText); reflexivity.
  - apply (falsy_content_is_info_only zero); reflexivity.
  - apply (falsy_content_is_info_only
             (mkProps true None None (Fn 1) (RBoolean false)));
      reflexivity.
Defined.

(* ------------------------------------------------------------------ *)
(** ** Dismissal *)

Lemma activate_one (g : Gesture) (args : list JsValue) (scr : list ReactNode)
    (f : Callback) (w : World) :
  targets g scr = [f] -> activate g args scr w = invoke f args w.
Proof. intros H. unfold activate. rewrite H. reflexivity. Qed.

Lemma activate_none (g : Gesture) (args : list JsValue) (scr : list ReactNode)
    (w : World) :
  targets g scr = [] -> activate g args scr w = w.
Proof. intros H. unfold activate. rewrite H. reflexivity. Qed.

(** C6, as the code has it: a gesture reaches a handler exactly on the
    screen of an open request whose mode offers it -- the close button in
    INFO_ONLY mode, the dismiss icon in CONTENT mode, the dialog's own
    dismissal in both -- and the handler it reaches is [onClose] itself, once.
    Activating it calls [onClose] exactly once, with the very arguments the
    host passes to the handler, none added and none dropped, and does nothing
    else. *)
Theorem dismissal_calls_onClose_once (p : DialogModalProps) (g : Gesture)
    (args : list JsValue) (w : World) :
  targets g (screen p) = (if open p && offered g p then [onClose p] else [])
  /\ (open p = true -> offered g p = true ->
      activate g args (screen p) w = invoke (onClose p) args w
      /\ trace (activate g args (screen p) w)
         = trace w ++ [Invoke (onClose p) args]).
Proof.
  split; [apply targets_screen|].
  intros Ho Hg.
  assert (T : targets g (screen p) = [onClose p]).
  { rewrite targets_screen, Ho, Hg. reflexivity. }
  rewrite (activate_one g args (screen p) w T).
  split; reflexivity.
Qed.

Lemma dismissal_calls_onClose_once_witness :
  trace (activate ClickCloseButton click (screen scenarioA) fresh)
  = [Invoke (Fn 1) [JEvent "click"]]
  /\ trace (activate DialogDismiss [JBoolean false] (screen scenarioB) fresh)
     = [Invoke (Fn 1) [JBoolean false]].
Proof.
  split.
  - apply (dismissal_calls_onClose_once scenarioA ClickCloseButton click
             fresh); reflexivity.
  - apply (dismissal_calls_onClose_once scenarioB DialogDismiss
             [JBoolean false] fresh); reflexivity.
Defined.

(** Against the wording of C6: a click on the dismiss icon
    calls [onClose] with the click event, not with an empty argument list. *)
Lemma dismissal_passes_arguments :
  open scenarioB = true
  /\ offered ClickDismissIcon scenarioB = true
  /\ trace (activate ClickDismissIcon click (screen scenarioB) fresh)
     = [Invoke (onClose scenarioB) [JEvent "click"]]
  /\ trace (activate ClickDismissIcon click (screen scenarioB) fresh)
     <> trace fresh ++ [Invoke (onClose scenarioB) []].
Proof.
  repeat split; try reflexivity.
  intros H. vm_compute in H. discriminate H.
Qed.

(* ------------------------------------------------------------------ *)
(** ** Container width *)

Lemma container_classes_element (p : DialogModalProps) :
  container_classes (element p)
  = [if truthy (children p)
     then ["p-0"; "w-full"; "!max-w-2xl"]
     else ["p-0"; "!max-w-md"]].
Proof.
  unfold container_classes, containers, element, contentClassName,
         showInfoOnly, js_not.
  simpl. destruct (truthy (children p)); reflexivity.
Qed.

(** C7: the classes of the container are a function of the mode.  In
    INFO_ONLY mode they are [p-0 !max-w-md], in CONTENT mode
    [p-0 w-full !max-w-2xl]; so two requests in the same mode get the same
    container, the wide class never occurs in INFO_ONLY mode and the compact
    one never in CONTENT mode. *)
Theorem width_class_by_mode (p q : DialogModalProps) :
  match mode_of (body_of (element p)) with
  | Some INFO_ONLY =>
      container_classes (element p) = [["p-0"; "!max-w-md"]]
      /\ contentClassName p = "p-0 !max-w-md"
  | Some CONTENT =>
      container_classes (element p) = [["p-0"; "w-full"; "!max-w-2xl"]]
      /\ contentClassName p = "p-0 w-full !max-w-2xl"
  | None => False
  end
  /\ (mode_of (body_of (element q)) = mode_of (body_of (element p)) ->
      container_classes (element q) = container_classes (element p)
      /\ contentClassName q = contentClassName p).
Proof.
  rewrite !mode_of_element, !container_classes_element.
  unfold mode_by_truthiness, contentClassName, showInfoOnly, js_not.
  split.
  - destruct (truthy (children p)); split; reflexivity.
  - destruct (truthy (children p)), (truthy (children q));
      intros H; try discriminate H; split; reflexivity.
Qed.

Lemma width_class_by_mode_witness :
  container_classes (element scenarioC) = container_classes (element scenarioB)
  /\ container_classes (element zero) = container_classes (element scenarioA).
Proof.
  split.
  - apply (width_class_by_mode scenarioB scenarioC). reflexivity.
  - apply (width_class_by_mode scenarioA zero). reflexivity.
Defined.

(* ================================================================== *)
(** * Further properties of the component *)

Lemma mount_falsy_stray (c : ReactNode) :
  truthy c = false -> mount c = stray c.
Proof.
  destruct c as [| |b|x|s|t props kids|items]; simpl; intros H;
    try discriminate; try reflexivity.
  destruct (s =? ""); [reflexivity | discriminate].
Qed.

Lemma leaves_stray (c : ReactNode) : leaves_on (stray c) = stray c.
Proof. destruct c; reflexivity. Qed.

Lemma stray_cases (c : ReactNode) :
  (exists x, c = RNumber x /\ stray c = [RNumber x])
  \/ ((forall x, c <> RNumber x) /\ stray c = []).
Proof.
  destruct c as [| |b|x|s|t props kids|items];
    try (right; split; [intros y; discriminate | reflexivity]).
  left. exists x. split; reflexivity.
Qed.

(** X1: on the screen of an open request with falsy content the texts read,
    in this order: the title when it is a non-empty string, the description
    when it is one, the label of the close button, and last the content
    itself when it is a falsy number. *)
Theorem info_texts_in_order (p : DialogModalProps) :
  open p = true -> truthy (children p) = false ->
  leaves_on (screen p)
  = shown_text (title p) ++ shown_text (description p)
    ++ [RString "Close"] ++ stray (children p).
Proof.
  intros Ho H. rewrite (screen_open p Ho), (body_info p H).
  rewrite (mount_falsy_stray (children p) H).
  unfold leaves_on. simpl. rewrite !app_nil_r.
  change (flat_map leaves (stray (children p)))
    with (leaves_on (stray (children p))).
  rewrite leaves_stray.
  unfold titleRegion, descriptionRegion, shown_text.
  destruct (title p) as [[|? ?]|]; destruct (description p) as [[|? ?]|];
    reflexivity.
Qed.

Lemma info_texts_in_order_witness :
  leaves_on (screen scenarioA)
  = [RString "Delete item?"; RString "This cannot be undone.";
     RString "Close"]
  /\ leaves_on (screen zero)
     = [RString "Saved"; RString "Close"; RNumber 0%float].
Proof.
  split.
  - apply (info_texts_in_order scenarioA); reflexivity.
  - apply (info_texts_in_order zero); reflexivity.
Defined.

(** X2: with falsy content the container of an open request holds the
    header, the close row and, after them, the content itself exactly when
    the content is a number (0, -0 or NaN), which React prints; every other
    falsy content leaves nothing behind. *)
Theorem falsy_number_reaches_screen (p : DialogModalProps) :
  open p = true -> truthy (children p) = false ->
  overlay_body (screen p)
  = RElement DialogHeader [] (titleRegion p ++ descriptionRegion p)
      :: closeRow p :: stray (children p)
  /\ (length (overlay_body (screen p)) = 3
      <-> exists x, children p = RNumber x)
  /\ (length (overlay_body (screen p)) = 2
      <-> forall x, children p <> RNumber x).
Proof.
  intros Ho H. rewrite (overlay_body_screen p Ho), (body_info p H).
  rewrite (mount_falsy_stray (children p) H).
  split; [reflexivity|].
  destruct (stray_cases (children p)) as [[x [E S]] | [N S]]; rewrite S;
    simpl; split; split; intros K.
  - exists x. exact E.
  - reflexivity.
  - discriminate K.
  - exfalso. apply (K x). exact E.
  - discriminate K.
  - destruct K as [x E]. exfalso. apply (N x). exact E.
  - exact N.
  - reflexivity.
Qed.

Lemma falsy_number_reaches_screen_witness :
  length (overlay_body (screen zero)) = 3
  /\ length (overlay_body (screen emptyText)) = 2.
Proof.
  split.
  - apply (falsy_number_reaches_screen zero); try reflexivity.
    exists 0%float. reflexivity.
  - apply (falsy_number_reaches_screen emptyText); try reflexivity.
    intros x. discriminate.
Defined.

(** X3: on the screen of an open request with truthy content the component
    shows no text of its own: the texts on the screen are those of the
    caller's content, in their order, so a title or description that is not
    part of the content is nowhere on the screen. *)
Theorem content_texts_are_the_callers (p : DialogModalProps) :
  open p = true -> truthy (children p) = true ->
  leaves_on (screen p) = leaves_on (mount (children p))
  /\ (forall s, ~ In (RString s) (leaves_on (mount (children p))) ->
      ~ In (RString s) (leaves_on (screen p))).
Proof.
  intros Ho H.
  assert (E : leaves_on (screen p) = leaves_on (mount (children p))).
  { rewrite (screen_open p Ho), (body_content p H).
    unfold leaves_on, scrollRegion, dismissIcon. simpl.
    rewrite !app_nil_r. reflexivity. }
  split; [exact E|].
  intros s N. rewrite E. exact N.
Qed.

Lemma content_texts_are_the_callers_witness :
  leaves_on (screen scenarioB) = []
  /\ ~ In (RString "ignored") (leaves_on (screen scenarioB)).
Proof.
  destruct (content_texts_are_the_callers scenarioB eq_refl eq_refl)
    as [H1 H2].
  split.
  - exact H1.
  - apply H2. simpl. intros F. exact F.
Defined.



Lemma flat_map_mount_nothing (items : list ReactNode) :
  Forall (fun i => mount i = []) items -> flat_map mount items = [].
Proof.
  induction 1 as [|i rest Hi _ IH]; simpl.
  - reflexivity.
  - rewrite Hi, IH. reflexivity.
Qed.

(** X5: an array is truthy whatever it holds, so an open request whose
    content is an array is shown in CONTENT mode with the wide container,
    also when the array is empty or none of its items shows anything; the
    screen then has the scrollable region with an empty wrapper and the
    dismiss icon. *)
Theorem array_content_selects_content (p : DialogModalProps)
    (items : list ReactNode) :
  open p = true -> children p = RArray items ->
  mode_of (overlay_body (screen p)) = Some CONTENT
  /\ contentClassName p = "p-0 w-full !max-w-2xl"
  /\ targets ClickDismissIcon (screen p) = [onClose p]
  /\ targets ClickCloseButton (screen p) = []
  /\ (Forall (fun i => mount i = []) items ->
      overlay_body (screen p)
      = [RElement Div [ClassName "relative max-h-[75vh] overflow-auto"]
           [RElement Div [ClassName "relative"] []; dismissIcon p]]).
Proof.
  intros Ho Hc.
  assert (H : truthy (children p) = true) by (rewrite Hc; reflexivity).
  rewrite !targets_screen, Ho, (overlay_body_screen p Ho).
  unfold offered, contentClassName, showInfoOnly, js_not. rewrite H.
  rewrite mode_of_element. unfold mode_by_truthiness. rewrite H.
  repeat split.
  intros Hn. rewrite (body_content p H). unfold scrollRegion.
  rewrite Hc. simpl mount. rewrite (@flat_map_mount_nothing items Hn). reflexivity.
Qed.

Lemma array_content_selects_content_witness :
  overlay_body (screen (mkProps true (Some "Saved") None (Fn 1)
                          (RArray [RNull; RBoolean false; RString ""])))
  = [RElement Div [ClassName "relative max-h-[75vh] overflow-auto"]
       [RElement Div [ClassName "relative"] [];
        dismissIcon (mkProps true (Some "Saved") None (Fn 1)
                       (RArray [RNull; RBoolean false; RString ""]))]].
Proof.
  apply (@array_content_selects_content
           (mkProps true (Some "Saved") None (Fn 1)
              (RArray [RNull; RBoolean false; RString ""]))
           [RNull; RBoolean false; RString ""]); try reflexivity.
  repeat constructor.
Defined.

(** X6: with falsy content the header element is the first thing in the
    container whether or not there is anything to put in it: it holds the
    title region and the description region that are provided, and it is
    there, empty, when neither text is a non-empty string. *)
Theorem header_rendered_even_when_empty (p : DialogModalProps) :
  open p = true -> truthy (children p) = false ->
  exists kids,
    hd RNull (overlay_body (screen p)) = RElement DialogHeader [] kids
    /\ length kids
       = (if provided (title p) then 1 else 0)
         + (if provided (description p) then 1 else 0)
    /\ (kids = [] <->
        provided (title p) = false /\ provided (description p) = false).
Proof.
  intros Ho H. rewrite (overlay_body_screen p Ho), (body_info p H).
  exists (titleRegion p ++ descriptionRegion p).
  split; [reflexivity|].
  unfold titleRegion, descriptionRegion.
  destruct (provided (title p)), (provided (description p)); simpl;
    (split; [reflexivity|]); split; intros K;
    try discriminate K; try (destruct K; discriminate);
    try reflexivity; try (split; reflexivity).
Qed.

Lemma header_rendered_even_when_empty_witness :
  exists kids,
    hd RNull (overlay_body
                (screen (mkProps true (Some "") None (Fn 1) RUndefined)))
    = RElement DialogHeader [] kids
    /\ length kids = 0
    /\ (kids = [] <-> false = false /\ false = false).
Proof.
  apply (header_rendered_even_when_empty
           (mkProps true (Some "") None (Fn 1) RUndefined));
    reflexivity.
Defined.

Lemma activate_all_trace (p : DialogModalProps)
    (gs : list (Gesture * list JsValue)) :
  open p = true ->
  Forall (fun ga => offered (fst ga) p = true) gs ->
  forall w,
    trace (activate_all gs (screen p) w)
    = trace w ++ map (fun ga => Invoke (onClose p) (snd ga)) gs
    /\ callerOpen (activate_all gs (screen p) w) = callerOpen w.
Proof.
  intros Ho. induction 1 as [|[g args] rest Hg _ IH]; intros w; simpl.
  - rewrite app_nil_r. split; reflexivity.
  - simpl in Hg.
    assert (T : targets g (screen p) = [onClose p]).
    { rewrite targets_screen, Ho, Hg. reflexivity. }
    rewrite (activate_one g args (screen p) w T).
    destruct (IH (invoke (onClose p) args w)) as [Ht Hc].
    rewrite Ht, Hc. simpl. rewrite <- app_assoc. split; reflexivity.
Qed.

(** X7: the component keeps no record of a dismissal.  Gestures activated
    one after the other on the screen of an open request, each offered by its
    mode, call [onClose] once per gesture, in the order of the gestures and
    each with its own arguments; nothing is merged or dropped, and the
    caller's open flag is left to the caller throughout. *)
Theorem dismissals_are_not_deduplicated (p : DialogModalProps)
    (gs : list (Gesture * list JsValue)) (w : World) :
  open p = true ->
  Forall (fun ga => offered (fst ga) p = true) gs ->
  trace (activate_all gs (screen p) w)
  = trace w ++ map (fun ga => Invoke (onClose p) (snd ga)) gs
  /\ length (trace (activate_all gs (screen p) w))
     = length (trace w) + length gs
  /\ callerOpen (activate_all gs (screen p) w) = callerOpen w.
Proof.
  intros Ho Hg.
  destruct (@activate_all_trace p gs Ho Hg w) as [Ht Hc].
  rewrite Ht, length_app, length_map.
  repeat split. exact Hc.
Qed.

Lemma dismissals_are_not_deduplicated_witness :
  trace (activate_all [(DialogDismiss, [JBoolean false]);
                       (ClickDismissIcon, click)]
                      (screen scenarioB) fresh)
  = [Invoke (Fn 1) [JBoolean false]; Invoke (Fn 1) [JEvent "click"]].
Proof.
  apply (@dismissals_are_not_deduplicated
           scenarioB [(DialogDismiss, [JBoolean false]);
                      (ClickDismissIcon, click)] fresh).
  - reflexivity.
  - repeat constructor.
Defined.

(** X8: an empty string is treated like a missing text.  Whatever the rest
    of the request is, a title or a description that is the empty string
    gives the same screen as one that is absent. *)
Theorem empty_text_same_as_absent (p : DialogModalProps) :
  screen (with_texts (Some "") (description p) p)
  = screen (with_texts None (description p) p)
  /\ screen (with_texts (title p) (Some "") p)
     = screen (with_texts (title p) None p)
  /\ screen (with_texts (Some "") (Some "") p)
     = screen (with_texts None None p).
Proof.
  unfold with_texts. unfold_component. simpl.
  destruct (truthy (children p)); simpl; repeat split.
Qed.
